(** * Per-entity artificial-lights control: a shallow embedding

    Source: code/components/extra-natives-five/src/ArtificialLightsNatives.cpp

    The component keeps a process-wide set of raw entity addresses
    ([g_entitiesIgnoringBlackout]) guarded by a reader/writer mutex, hooks
    [Lights::AddSceneLight] and registers four script natives plus a
    session-teardown callback.

    Modelling choices
    - [void*] / [bool*] are addresses in [N]; [0] is [nullptr].
    - Script handles ([int]) are in [Z]; [0] is the "no handle" value.
    - The host process (memory cells the hook reads and writes, and the
      [rage::fwScriptGuid] registry) is a record of lookup functions; the
      original [Lights::AddSceneLight] is a parameter that may update the
      host arbitrarily and returns a [bool].
    - Code runs in a small state/error/trace monad: the state is the
      component's globals together with the host, an error is a null
      dereference, and the trace lists, in program order, every lock
      operation, set operation, memory access and external call. *)

From stdpp Require Import gmap list.
From Stdlib Require Import ZArith NArith.

Local Open Scope N_scope.

(** ** Addresses and the host process *)

Abbreviation ptr := N.

Definition nullptr : ptr := 0.

(** [constexpr ptrdiff_t LIGHT_ENTITY_PARENT_OFFSET = 0xD0;] *)
Definition LIGHT_ENTITY_PARENT_OFFSET : N := 0xD0.

(** What this component can see of the host: [bool] cells and pointer
    fields by address, and the two directions of the script-handle
    registry ([rage::fwScriptGuid::GetBaseFromGuid] returns [nullptr] for
    an invalid handle, [GetGuidFromBase] returns [0] for an object that
    has no handle).  [bool] cells and pointer fields are kept apart: the
    hook reads its one pointer field before it writes any flag cell, and
    two flag addresses may well be the same address. *)
Record host_state : Type := HostState {
  bool_at : ptr -> bool;
  ptr_at : ptr -> ptr;
  GetBaseFromGuid : Z -> ptr;
  GetGuidFromBase : ptr -> Z
}.

Definition write_bool (a : ptr) (v : bool) (h : host_state) : host_state :=
  {| bool_at := fun x => if x =? a then v else bool_at h x;
     ptr_at := ptr_at h;
     GetBaseFromGuid := GetBaseFromGuid h;
     GetGuidFromBase := GetGuidFromBase h |}.

(** ** The component's globals *)

Record world : Type := World {
  g_entitiesIgnoringBlackout : gset N;
  g_disableArtificialLights : ptr;
  g_disableArtificialVehLights : ptr;
  host : host_state
}.

Definition with_entities (s : gset N) (w : world) : world :=
  {| g_entitiesIgnoringBlackout := s;
     g_disableArtificialLights := g_disableArtificialLights w;
     g_disableArtificialVehLights := g_disableArtificialVehLights w;
     host := host w |}.

Definition with_host (h : host_state) (w : world) : world :=
  {| g_entitiesIgnoringBlackout := g_entitiesIgnoringBlackout w;
     g_disableArtificialLights := g_disableArtificialLights w;
     g_disableArtificialVehLights := g_disableArtificialVehLights w;
     host := h |}.

(** State right after the hook function has run: the set is empty and the
    two flag addresses are whatever the pattern scan produced
    ([nullptr] when it produced nothing). *)
Definition startup (lights vehLights : ptr) (h : host_state) : world :=
  {| g_entitiesIgnoringBlackout := ∅;
     g_disableArtificialLights := lights;
     g_disableArtificialVehLights := vehLights;
     host := h |}.

(** ** Traces *)

Inductive lock_mode : Type := Shared | Exclusive.

Inductive event : Type :=
| EvLock (m : lock_mode)                 (* g_entitiesMutex acquired *)
| EvUnlock (m : lock_mode)               (* g_entitiesMutex released *)
| EvFind (p : ptr)                       (* set.find(p) *)
| EvInsert (p : ptr)                     (* set.insert(p) *)
| EvErase (p : ptr)                      (* set.erase(p) *)
| EvClear                                (* set.clear() *)
| EvIterate                              (* range-for over the set *)
| EvLoadPtr (a : ptr)                    (* read of a pointer field *)
| EvLoadBool (a : ptr)                   (* read of a flag cell *)
| EvStoreBool (a : ptr) (v : bool)       (* write of a flag cell *)
| EvOrig (sceneLight lightEntity : ptr) (addToPreviousLightList : bool)
         (seen : host_state)             (* call of g_origAddSceneLight *)
| EvGetBaseFromGuid (handle : Z)         (* handle -> object *)
| EvGetGuidFromBase (p : ptr).           (* object -> handle *)

(** ** The monad *)

Definition M (A : Type) : Type := world -> option (A * world * list event).

Definition ret {A} (x : A) : M A := fun w => Some (x, w, []).

Definition bind {A B} (m : M A) (k : A -> M B) : M B :=
  fun w =>
    match m w with
    | None => None
    | Some (x, w1, t1) =>
        match k x w1 with
        | None => None
        | Some (y, w2, t2) => Some (y, w2, t1 ++ t2)
        end
    end.

Notation "x <- m ;; k" := (bind m (fun x => k))
  (at level 100, m at next level, right associativity).
Notation "m ;; k" := (bind m (fun _ => k))
  (at level 100, right associativity).

Definition emit (e : event) : M unit := fun w => Some (tt, w, [e]).

Definition crash {A} : M A := fun _ => None.

Definition global {A} (field : world -> A) : M A := fun w => Some (field w, w, []).

(** *** Memory *)

Definition load_ptr (a : ptr) : M ptr :=
  if a =? 0 then crash
  else fun w => Some (ptr_at (host w) a, w, [EvLoadPtr a]).

Definition load_bool (a : ptr) : M bool :=
  if a =? 0 then crash
  else fun w => Some (bool_at (host w) a, w, [EvLoadBool a]).

Definition store_bool (a : ptr) (v : bool) : M unit :=
  if a =? 0 then crash
  else fun w => Some (tt, with_host (write_bool a v (host w)) w, [EvStoreBool a v]).

(** *** The mutex: [std::shared_lock] / [std::unique_lock] held for a scope *)

Definition scoped_lock {A} (m : lock_mode) (body : M A) : M A :=
  emit (EvLock m) ;;
  r <- body ;;
  emit (EvUnlock m) ;;
  ret r.

(** *** [std::unordered_set<void*>] *)

Definition set_find (p : ptr) : M bool :=
  fun w => Some (bool_decide (p ∈ g_entitiesIgnoringBlackout w), w, [EvFind p]).

Definition set_insert (p : ptr) : M unit :=
  fun w => Some (tt, with_entities ({[p]} ∪ g_entitiesIgnoringBlackout w) w, [EvInsert p]).

Definition set_erase (p : ptr) : M unit :=
  fun w => Some (tt, with_entities (g_entitiesIgnoringBlackout w ∖ {[p]}) w, [EvErase p]).

Definition set_clear : M unit :=
  fun w => Some (tt, with_entities ∅ w, [EvClear]).

(** Iteration order of an unordered set is unspecified; the model takes
    the order of [elements]. *)
Definition set_iterate : M (list N) :=
  fun w => Some (elements (g_entitiesIgnoringBlackout w), w, [EvIterate]).

(** *** The handle registry *)

Definition call_GetBaseFromGuid (handle : Z) : M ptr :=
  fun w => Some (GetBaseFromGuid (host w) handle, w, [EvGetBaseFromGuid handle]).

Definition call_GetGuidFromBase (p : ptr) : M Z :=
  fun w => Some (GetGuidFromBase (host w) p, w, [EvGetGuidFromBase p]).

(** ** The code *)

(** [static bool DoesEntityIgnoreBlackout(void* entity)] *)
Definition DoesEntityIgnoreBlackout (entity : ptr) : M bool :=
  if entity =? 0 then ret false
  else scoped_lock Shared (set_find entity).

(** [static void* GetParentEntityFromLightEntity(void* lightEntity)] *)
Definition GetParentEntityFromLightEntity (lightEntity : ptr) : M ptr :=
  if lightEntity =? 0 then ret nullptr
  else load_ptr (lightEntity + LIGHT_ENTITY_PARENT_OFFSET).

(** The natives; arguments and results of the script context are the
    function's arguments and result. *)

Definition SET_ENTITY_LIGHTS_IGNORE_ARTIFICIAL_STATE
    (entityHandle : Z) (ignoreBlackout : bool) : M unit :=
  entity <- call_GetBaseFromGuid entityHandle ;;
  if entity =? 0 then ret tt
  else scoped_lock Exclusive
         (if ignoreBlackout then set_insert entity else set_erase entity).

Definition DOES_ENTITY_LIGHTS_IGNORE_ARTIFICIAL_STATE (entityHandle : Z) : M bool :=
  entity <- call_GetBaseFromGuid entityHandle ;;
  if entity =? 0 then ret false
  else DoesEntityIgnoreBlackout entity.

Definition CLEAR_ALL_ENTITY_LIGHTS_IGNORE_ARTIFICIAL_STATE : M unit :=
  scoped_lock Exclusive set_clear.

(** Body of the range-for in the enumeration native. *)
Fixpoint collect_handles (members : list N) (entityList : list Z) : M (list Z) :=
  match members with
  | [] => ret entityList
  | entityPtr :: rest =>
      handle <- call_GetGuidFromBase entityPtr ;;
      collect_handles rest
        (if (handle =? 0)%Z then entityList else entityList ++ [handle])
  end.

Definition GET_ALL_ENTITIES_IGNORING_ARTIFICIAL_LIGHTS_STATE : M (list Z) :=
  scoped_lock Shared
    (members <- set_iterate ;;
     collect_handles members []).

(** [OnKillNetworkDone.Connect(...)] *)
Definition OnKillNetworkDone : M unit :=
  scoped_lock Exclusive set_clear.

Section Hook.

(** [g_origAddSceneLight]: the trampoline to the original
    [Lights::AddSceneLight].  It works on the host only: the set, the
    mutex and the two flag addresses are [static] in this translation
    unit. *)
Variable g_origAddSceneLight : ptr -> ptr -> bool -> host_state -> bool * host_state.

Definition call_orig (sceneLight lightEntity : ptr) (addToPreviousLightList : bool)
    : M bool :=
  fun w =>
    let '(result, h) :=
      g_origAddSceneLight sceneLight lightEntity addToPreviousLightList (host w) in
    Some (result, with_host h w,
          [EvOrig sceneLight lightEntity addToPreviousLightList (host w)]).

(** [shouldOverride && g_disableArtificialLights && g_disableArtificialVehLights] *)
Definition override_condition (shouldOverride : bool) : M bool :=
  lights <- global g_disableArtificialLights ;;
  vehLights <- global g_disableArtificialVehLights ;;
  ret (shouldOverride && negb (lights =? 0) && negb (vehLights =? 0)).

(** [static bool AddSceneLightHook(void*, void*, bool)] *)
Definition AddSceneLightHook
    (sceneLight lightEntity : ptr) (addToPreviousLightList : bool) : M bool :=
  parentEntity <- GetParentEntityFromLightEntity lightEntity ;;
  shouldOverride <- DoesEntityIgnoreBlackout parentEntity ;;
  c1 <- override_condition shouldOverride ;;
  saved <- (if c1 : bool then
              lights <- global g_disableArtificialLights ;;
              vehLights <- global g_disableArtificialVehLights ;;
              origLightsState <- load_bool lights ;;
              origVehLightsState <- load_bool vehLights ;;
              store_bool lights false ;;
              store_bool vehLights false ;;
              ret (origLightsState, origVehLightsState)
            else ret (false, false)) ;;
  result <- call_orig sceneLight lightEntity addToPreviousLightList ;;
  c2 <- override_condition shouldOverride ;;
  (if c2 : bool then
     lights <- global g_disableArtificialLights ;;
     vehLights <- global g_disableArtificialVehLights ;;
     store_bool lights (fst saved) ;;
     store_bool vehLights (snd saved)
   else ret tt) ;;
  ret result.

End Hook.

(** ** Reading traces *)

Definition is_external_call (e : event) : bool :=
  match e with
  | EvOrig _ _ _ _ | EvGetBaseFromGuid _ | EvGetGuidFromBase _ => true
  | _ => false
  end.

Definition is_flag_access (e : event) : bool :=
  match e with
  | EvLoadBool _ | EvStoreBool _ _ => true
  | _ => false
  end.

Definition is_set_mutation (e : event) : bool :=
  match e with
  | EvInsert _ | EvErase _ | EvClear => true
  | _ => false
  end.

Definition is_set_or_lock_event (e : event) : bool :=
  match e with
  | EvLock _ | EvUnlock _ | EvFind _ | EvInsert _ | EvErase _ | EvClear | EvIterate => true
  | _ => false
  end.

(** [inserts p e]: [e] is an insertion of [p] into the set. *)
Definition inserts (p : ptr) (e : event) : bool :=
  match e with
  | EvInsert q => q =? p
  | _ => false
  end.

(** [external_calls_unlocked held t]: scanning [t] from a point where the
    mutex is held iff [held], no external call happens while it is held. *)
Fixpoint external_calls_unlocked (held : bool) (t : list event) : bool :=
  match t with
  | [] => true
  | EvLock _ :: t' => external_calls_unlocked true t'
  | EvUnlock _ :: t' => external_calls_unlocked false t'
  | e :: t' => (negb held || negb (is_external_call e)) && external_calls_unlocked held t'
  end.

(** The mutex as the running thread sees it: free ([None]) or held in
    some mode.  [lock_step held e] is the state after [e], or [None] when
    [e] breaks the discipline: taking the mutex while holding it,
    releasing it in a mode it is not held in, reading the set without the
    mutex, or changing the set without the exclusive mutex. *)
Definition lock_mode_eqb (a b : lock_mode) : bool :=
  match a, b with
  | Shared, Shared | Exclusive, Exclusive => true
  | _, _ => false
  end.

Definition lock_step (held : option lock_mode) (e : event)
    : option (option lock_mode) :=
  match e with
  | EvLock m =>
      match held with None => Some (Some m) | Some _ => None end
  | EvUnlock m =>
      match held with
      | Some m' => if lock_mode_eqb m m' then Some None else None
      | None => None
      end
  | EvFind _ | EvIterate =>
      match held with Some _ => Some held | None => None end
  | EvInsert _ | EvErase _ | EvClear =>
      match held with Some Exclusive => Some held | _ => None end
  | _ => Some held
  end.

Fixpoint lock_run (held : option lock_mode) (t : list event)
    : option (option lock_mode) :=
  match t with
  | [] => Some held
  | e :: t' =>
      match lock_step held e with
      | Some held' => lock_run held' t'
      | None => None
      end
  end.

Definition is_orig_call (e : event) : bool :=
  match e with
  | EvOrig _ _ _ _ => true
  | _ => false
  end.

Definition is_flag_store (e : event) : bool :=
  match e with
  | EvStoreBool _ _ => true
  | _ => false
  end.

(** ** Operation sequences *)

Inductive op : Type :=
| OpSet (entityHandle : Z) (ignoreBlackout : bool)
| OpDoes (entityHandle : Z)
| OpClearAll
| OpGetAll
| OpTeardown
| OpHook (sceneLight lightEntity : ptr) (addToPreviousLightList : bool)
| OpHost (h : host_state).   (* the host moves on between two calls *)

Definition discard {A} (m : M A) : M unit := _ <- m ;; ret tt.

Definition run_op (orig : ptr -> ptr -> bool -> host_state -> bool * host_state)
    (o : op) : M unit :=
  match o with
  | OpSet entityHandle ignoreBlackout =>
      SET_ENTITY_LIGHTS_IGNORE_ARTIFICIAL_STATE entityHandle ignoreBlackout
  | OpDoes entityHandle => discard (DOES_ENTITY_LIGHTS_IGNORE_ARTIFICIAL_STATE entityHandle)
  | OpClearAll => CLEAR_ALL_ENTITY_LIGHTS_IGNORE_ARTIFICIAL_STATE
  | OpGetAll => discard GET_ALL_ENTITIES_IGNORING_ARTIFICIAL_LIGHTS_STATE
  | OpTeardown => OnKillNetworkDone
  | OpHook sceneLight lightEntity addToPreviousLightList =>
      discard (AddSceneLightHook orig sceneLight lightEntity addToPreviousLightList)
  | OpHost h => fun w => Some (tt, with_host h w, [])
  end.

Fixpoint run_ops (orig : ptr -> ptr -> bool -> host_state -> bool * host_state)
    (os : list op) : M unit :=
  match os with
  | [] => ret tt
  | o :: os' => run_op orig o ;; run_ops orig os'
  end.

(** ** Concrete data used by the examples *)

Module Sample.

(** One light entity at [0x1000] whose parent field holds [0x2000];
    handle [42] names the object at [0x2000]; every flag cell is set. *)
Definition h0 : host_state :=
  {| bool_at := fun _ => true;
     ptr_at := fun a => if a =? 0x10D0 then 0x2000 else 0;
     GetBaseFromGuid := fun h => if (h =? 42)%Z then 0x2000 else 0;
     GetGuidFromBase := fun p => if p =? 0x2000 then 42%Z else 0%Z |}.

(** An original that reports whether both flag cells were set and
    leaves the host as it found it. *)
Definition orig0 (_ _ : ptr) (_ : bool) (h : host_state) : bool * host_state :=
  (bool_at h 0x7000 && bool_at h 0x7008, h).

Definition w_empty : world := startup 0x7000 0x7008 h0.

Definition w_marked : world := with_entities {[ 0x2000 ]} w_empty.

Definition w_unresolved : world := with_entities {[ 0x2000 ]} (startup 0 0x7008 h0).

End Sample.

(** ** How each piece of code runs *)

Lemma N_add_offset_nonzero (a : N) : (a + LIGHT_ENTITY_PARENT_OFFSET =? 0) = false.
Proof. apply N.eqb_neq. unfold LIGHT_ENTITY_PARENT_OFFSET. lia. Qed.

Lemma GetParentEntityFromLightEntity_run lightEntity w :
  GetParentEntityFromLightEntity lightEntity w =
    Some (if lightEntity =? 0 then nullptr
          else ptr_at (host w) (lightEntity + LIGHT_ENTITY_PARENT_OFFSET),
          w,
          if lightEntity =? 0 then []
          else [EvLoadPtr (lightEntity + LIGHT_ENTITY_PARENT_OFFSET)]).
Proof.
  unfold GetParentEntityFromLightEntity, load_ptr.
  destruct (lightEntity =? 0); [reflexivity|].
  now rewrite N_add_offset_nonzero.
Qed.

Lemma DoesEntityIgnoreBlackout_run entity w :
  DoesEntityIgnoreBlackout entity w =
    Some (negb (entity =? 0) && bool_decide (entity ∈ g_entitiesIgnoringBlackout w),
          w,
          if entity =? 0 then []
          else [EvLock Shared; EvFind entity; EvUnlock Shared]).
Proof.
  unfold DoesEntityIgnoreBlackout.
  destruct (entity =? 0); reflexivity.
Qed.

Lemma bind_run {A B} (m : M A) (k : A -> M B) w x w1 t1 :
  m w = Some (x, w1, t1) ->
  bind m k w = match k x w1 with
               | Some (y, w2, t2) => Some (y, w2, t1 ++ t2)
               | None => None
               end.
Proof. intros E. unfold bind. now rewrite E. Qed.

Lemma collect_handles_run members : forall entityList w,
  collect_handles members entityList w =
    Some (entityList ++
            filter (fun handle => handle ≠ 0%Z) (GetGuidFromBase (host w) <$> members),
          w,
          EvGetGuidFromBase <$> members).
Proof.
  induction members as [|entityPtr rest IH]; intros entityList w; simpl.
  - unfold ret. now rewrite app_nil_r.
  - rewrite (bind_run _ _ w _ w [EvGetGuidFromBase entityPtr] eq_refl).
    rewrite IH. simpl.
    rewrite filter_cons.
    destruct (Z.eqb_spec (GetGuidFromBase (host w) entityPtr) 0) as [E|E].
    + rewrite E. rewrite decide_False by tauto. reflexivity.
    + rewrite decide_True by assumption. rewrite <- app_assoc. reflexivity.
Qed.

Lemma GET_ALL_run w :
  GET_ALL_ENTITIES_IGNORING_ARTIFICIAL_LIGHTS_STATE w =
    Some (filter (fun handle => handle ≠ 0%Z)
            (GetGuidFromBase (host w) <$> elements (g_entitiesIgnoringBlackout w)),
          w,
          EvLock Shared :: EvIterate ::
            (EvGetGuidFromBase <$> elements (g_entitiesIgnoringBlackout w))
            ++ [EvUnlock Shared]).
Proof.
  unfold GET_ALL_ENTITIES_IGNORING_ARTIFICIAL_LIGHTS_STATE, scoped_lock.
  unfold bind at 1. simpl.
  unfold bind at 1.
  unfold bind at 1. unfold set_iterate at 1.
  rewrite collect_handles_run. reflexivity.
Qed.

Lemma SET_run entityHandle ignoreBlackout w :
  SET_ENTITY_LIGHTS_IGNORE_ARTIFICIAL_STATE entityHandle ignoreBlackout w =
    let entity := GetBaseFromGuid (host w) entityHandle in
    if entity =? 0 then Some (tt, w, [EvGetBaseFromGuid entityHandle])
    else if ignoreBlackout then
      Some (tt, with_entities ({[entity]} ∪ g_entitiesIgnoringBlackout w) w,
            [EvGetBaseFromGuid entityHandle; EvLock Exclusive; EvInsert entity;
             EvUnlock Exclusive])
    else
      Some (tt, with_entities (g_entitiesIgnoringBlackout w ∖ {[entity]}) w,
            [EvGetBaseFromGuid entityHandle; EvLock Exclusive; EvErase entity;
             EvUnlock Exclusive]).
Proof.
  unfold SET_ENTITY_LIGHTS_IGNORE_ARTIFICIAL_STATE.
  rewrite (bind_run _ _ w _ w [EvGetBaseFromGuid entityHandle] eq_refl).
  cbv zeta.
  destruct (GetBaseFromGuid (host w) entityHandle =? 0); [reflexivity|].
  destruct ignoreBlackout; reflexivity.
Qed.

Lemma DOES_run entityHandle w :
  DOES_ENTITY_LIGHTS_IGNORE_ARTIFICIAL_STATE entityHandle w =
    let entity := GetBaseFromGuid (host w) entityHandle in
    Some (negb (entity =? 0) && bool_decide (entity ∈ g_entitiesIgnoringBlackout w),
          w,
          EvGetBaseFromGuid entityHandle ::
            if entity =? 0 then []
            else [EvLock Shared; EvFind entity; EvUnlock Shared]).
Proof.
  unfold DOES_ENTITY_LIGHTS_IGNORE_ARTIFICIAL_STATE.
  rewrite (bind_run _ _ w _ w [EvGetBaseFromGuid entityHandle] eq_refl).
  cbv zeta.
  destruct (GetBaseFromGuid (host w) entityHandle =? 0) eqn:E; [reflexivity|].
  rewrite DoesEntityIgnoreBlackout_run, E. reflexivity.
Qed.

Lemma clear_run w :
  scoped_lock Exclusive set_clear w =
    Some (tt, with_entities ∅ w, [EvLock Exclusive; EvClear; EvUnlock Exclusive]).
Proof. reflexivity. Qed.

Section HookFacts.

Variable orig : ptr -> ptr -> bool -> host_state -> bool * host_state.

(** The hook always returns; this is everything it does. *)
Lemma AddSceneLightHook_run sceneLight lightEntity addToPreviousLightList w :
  let parentEntity :=
    if lightEntity =? 0 then nullptr
    else ptr_at (host w) (lightEntity + LIGHT_ENTITY_PARENT_OFFSET) in
  let shouldOverride :=
    negb (parentEntity =? 0)
    && bool_decide (parentEntity ∈ g_entitiesIgnoringBlackout w) in
  let lights := g_disableArtificialLights w in
  let vehLights := g_disableArtificialVehLights w in
  let c := shouldOverride && negb (lights =? 0) && negb (vehLights =? 0) in
  let origLightsState := bool_at (host w) lights in
  let origVehLightsState := bool_at (host w) vehLights in
  let seen :=
    if c then write_bool vehLights false (write_bool lights false (host w))
    else host w in
  let out := orig sceneLight lightEntity addToPreviousLightList seen in
  AddSceneLightHook orig sceneLight lightEntity addToPreviousLightList w =
    Some (out.1,
          with_host
            (if c then
               write_bool vehLights origVehLightsState
                 (write_bool lights origLightsState out.2)
             else out.2) w,
          (if lightEntity =? 0 then []
           else [EvLoadPtr (lightEntity + LIGHT_ENTITY_PARENT_OFFSET)])
          ++ (if parentEntity =? 0 then []
              else [EvLock Shared; EvFind parentEntity; EvUnlock Shared])
          ++ (if c then
                [EvLoadBool lights; EvLoadBool vehLights;
                 EvStoreBool lights false; EvStoreBool vehLights false]
              else [])
          ++ [EvOrig sceneLight lightEntity addToPreviousLightList seen]
          ++ (if c then
                [EvStoreBool lights origLightsState;
                 EvStoreBool vehLights origVehLightsState]
              else [])).
Proof.
  cbv zeta. unfold AddSceneLightHook.
  erewrite bind_run by apply GetParentEntityFromLightEntity_run.
  erewrite bind_run by apply DoesEntityIgnoreBlackout_run.
  set (parentEntity := if lightEntity =? 0 then nullptr else _).
  set (shouldOverride := negb _ && _).
  unfold override_condition, call_orig, load_bool, store_bool, global, bind, ret.
  cbn [g_disableArtificialLights g_disableArtificialVehLights with_host host].
  destruct shouldOverride; cbn [andb];
    destruct (g_disableArtificialLights w =? 0) eqn:E1; cbn [andb negb];
    destruct (g_disableArtificialVehLights w =? 0) eqn:E2; cbn [andb negb];
    rewrite ?E1, ?E2;
    cbn [g_disableArtificialLights g_disableArtificialVehLights with_host host fst snd];
    match goal with
    | |- context [orig ?a ?b ?c ?h] => destruct (orig a b c h) as [result h']
    end;
    repeat (progress
              (cbn [g_disableArtificialLights g_disableArtificialVehLights
                    with_host host fst snd andb negb app];
               rewrite ?E1, ?E2));
    rewrite ?app_nil_r; reflexivity.
Qed.

End HookFacts.

(** ** Flag cells *)

Lemma bool_at_write_same a v h : bool_at (write_bool a v h) a = v.
Proof. simpl. now rewrite N.eqb_refl. Qed.

Lemma bool_at_write_other a b v h : b ≠ a -> bool_at (write_bool a v h) b = bool_at h b.
Proof. intros Hne. simpl. apply N.eqb_neq in Hne. now rewrite Hne. Qed.

(** Writing [v1] at [a1] and then the old content of [a2] at [a2] leaves
    [v1] at [a1] whenever [v1] is what [a2] held in case the two
    addresses coincide. *)
Lemma bool_at_restore_first a1 a2 v1 v2 h :
  (a1 = a2 -> v1 = v2) ->
  bool_at (write_bool a2 v2 (write_bool a1 v1 h)) a1 = v1.
Proof.
  intros Halias. simpl.
  destruct (N.eqb_spec a1 a2) as [E|E].
  - symmetry. now apply Halias.
  - now rewrite N.eqb_refl.
Qed.

Lemma eqb_nullptr_false (p : ptr) : p ≠ nullptr -> (p =? 0) = false.
Proof. intros H. now apply N.eqb_neq. Qed.

(** ** Trace scanning *)

Lemma external_calls_unlocked_resolving members :
  external_calls_unlocked true ((EvGetGuidFromBase <$> members) ++ [EvUnlock Shared]) =
    match members with [] => true | _ :: _ => false end.
Proof. destruct members; reflexivity. Qed.

(** ** The interception shim *)

(** C1. When the identity the shim derives is in the allow-list and both
    flag addresses are resolved, the shim reads both flag cells, writes
    [false] to both, calls the original (which therefore sees both cells
    cleared), and then writes the two saved values back: whatever the
    original did to the host, after the shim both cells hold the values
    they held before it, and no other cell differs from what the original
    left. *)
Theorem hook_member_saves_clears_restores
    (orig : ptr -> ptr -> bool -> host_state -> bool * host_state)
    (sceneLight lightEntity : ptr) (addToPreviousLightList : bool) (w : world)
    (Hlight : lightEntity ≠ nullptr)
    (Hparent : ptr_at (host w) (lightEntity + LIGHT_ENTITY_PARENT_OFFSET) ≠ nullptr)
    (Hmember : ptr_at (host w) (lightEntity + LIGHT_ENTITY_PARENT_OFFSET)
                 ∈ g_entitiesIgnoringBlackout w)
    (Hlights : g_disableArtificialLights w ≠ nullptr)
    (HvehLights : g_disableArtificialVehLights w ≠ nullptr) :
  let parentEntity := ptr_at (host w) (lightEntity + LIGHT_ENTITY_PARENT_OFFSET) in
  let lights := g_disableArtificialLights w in
  let vehLights := g_disableArtificialVehLights w in
  let origLightsState := bool_at (host w) lights in
  let origVehLightsState := bool_at (host w) vehLights in
  let seen := write_bool vehLights false (write_bool lights false (host w)) in
  let out := orig sceneLight lightEntity addToPreviousLightList seen in
  exists w',
    AddSceneLightHook orig sceneLight lightEntity addToPreviousLightList w =
      Some (out.1, w',
            [EvLoadPtr (lightEntity + LIGHT_ENTITY_PARENT_OFFSET);
             EvLock Shared; EvFind parentEntity; EvUnlock Shared;
             EvLoadBool lights; EvLoadBool vehLights;
             EvStoreBool lights false; EvStoreBool vehLights false;
             EvOrig sceneLight lightEntity addToPreviousLightList seen;
             EvStoreBool lights origLightsState;
             EvStoreBool vehLights origVehLightsState])
    /\ bool_at seen lights = false
    /\ bool_at seen vehLights = false
    /\ bool_at (host w') lights = origLightsState
    /\ bool_at (host w') vehLights = origVehLightsState
    /\ (forall a, a ≠ lights -> a ≠ vehLights -> bool_at (host w') a = bool_at out.2 a).
Proof.
  cbv zeta.
  rewrite AddSceneLightHook_run. cbv zeta.
  rewrite (eqb_nullptr_false _ Hlight), (eqb_nullptr_false _ Hparent).
  rewrite (bool_decide_eq_true_2 _ Hmember).
  rewrite (eqb_nullptr_false _ Hlights), (eqb_nullptr_false _ HvehLights).
  cbn [negb andb app].
  eexists. split; [reflexivity|].
  cbn [host with_host].
  repeat split.
  - apply bool_at_restore_first. reflexivity.
  - apply bool_at_write_same.
  - apply bool_at_restore_first. now intros ->.
  - apply bool_at_write_same.
  - intros a H1 H2. now rewrite !bool_at_write_other.
Qed.

Lemma hook_member_saves_clears_restores_witness :
  exists w' t,
    AddSceneLightHook Sample.orig0 1 0x1000 true Sample.w_marked = Some (false, w', t)
    /\ bool_at (host Sample.w_marked) 0x7000 = true
    /\ bool_at (host Sample.w_marked) 0x7008 = true
    /\ bool_at (host w') 0x7000 = true
    /\ bool_at (host w') 0x7008 = true.
Proof.
  destruct (hook_member_saves_clears_restores Sample.orig0 1 0x1000 true Sample.w_marked)
    as (w' & Hrun & _ & _ & H1 & H2 & _).
  - discriminate.
  - discriminate.
  - vm_compute. reflexivity.
  - discriminate.
  - discriminate.
  - exists w'. eexists. split; [exact Hrun|].
    split; [reflexivity|]. split; [reflexivity|].
    split; [exact H1 | exact H2].
Defined.

(** C2. When the identity the shim derives is null or is not in the
    allow-list, the shim writes no flag cell: the original runs on the
    host exactly as it was before the shim was entered, the host after the
    shim is exactly the host the original left, and the shim's own trace
    holds no flag access.  In particular, for an original that leaves the
    flag cells alone, every flag cell reads after the shim as before. *)
Theorem hook_non_member_writes_nothing
    (orig : ptr -> ptr -> bool -> host_state -> bool * host_state)
    (sceneLight lightEntity : ptr) (addToPreviousLightList : bool) (w : world)
    (identity : ptr) (t0 : list event)
    (Hidentity : GetParentEntityFromLightEntity lightEntity w = Some (identity, w, t0))
    (Hnon : identity = nullptr \/ identity ∉ g_entitiesIgnoringBlackout w) :
  let out := orig sceneLight lightEntity addToPreviousLightList (host w) in
  exists t,
    AddSceneLightHook orig sceneLight lightEntity addToPreviousLightList w =
      Some (out.1, with_host out.2 w,
            t ++ [EvOrig sceneLight lightEntity addToPreviousLightList (host w)])
    /\ existsb is_flag_access t = false
    /\ ((forall a, bool_at out.2 a = bool_at (host w) a) ->
        forall a, bool_at (host (with_host out.2 w)) a = bool_at (host w) a).
Proof.
  cbv zeta.
  rewrite GetParentEntityFromLightEntity_run in Hidentity.
  injection Hidentity as Hid Ht.
  rewrite AddSceneLightHook_run. cbv zeta. rewrite Hid.
  assert (Hno : negb (identity =? 0)
                && bool_decide (identity ∈ g_entitiesIgnoringBlackout w) = false).
  { destruct Hnon as [-> | Hnot]; [reflexivity|].
    rewrite (bool_decide_eq_false_2 _ Hnot). apply andb_false_r. }
  rewrite Hno. cbn [andb app].
  eexists. split.
  - rewrite app_assoc. reflexivity.
  - split.
    + destruct (lightEntity =? 0); destruct (identity =? 0); reflexivity.
    + intros Hframe a. apply Hframe.
Qed.

Lemma hook_non_member_writes_nothing_witness :
  exists t,
    AddSceneLightHook Sample.orig0 1 0x1000 true Sample.w_empty =
      Some (true, Sample.w_empty, t ++ [EvOrig 1 0x1000 true Sample.h0])
    /\ existsb is_flag_access t = false
    /\ forall a, bool_at (host Sample.w_empty) a = true.
Proof.
  destruct (hook_non_member_writes_nothing Sample.orig0 1 0x1000 true Sample.w_empty
              0x2000 [EvLoadPtr 0x10D0])
    as (t & Hrun & Hquiet & Hsame).
  - reflexivity.
  - right. apply not_elem_of_empty.
  - exists t. split; [exact Hrun|]. split; [exact Hquiet|].
    intros a. apply (Hsame (fun _ => eq_refl)).
Defined.

(** ** The mutex and external calls *)

(** The enumeration native takes the shared lock, then calls the inverse
    resolver for the one member of the set, and only then unlocks: the
    resolver call happens with the lock held. *)
Lemma enumeration_resolves_under_lock :
  GET_ALL_ENTITIES_IGNORING_ARTIFICIAL_LIGHTS_STATE Sample.w_marked =
    Some ([42%Z], Sample.w_marked,
          [EvLock Shared; EvIterate; EvGetGuidFromBase 0x2000; EvUnlock Shared])
  /\ external_calls_unlocked false
       [EvLock Shared; EvIterate; EvGetGuidFromBase 0x2000; EvUnlock Shared] = false.
Proof. split; vm_compute; reflexivity. Qed.

(** C3 (amended). The shim, the setter, the query, clear-all and the
    teardown callback never call the original or a resolver while the
    mutex is held: in the shim the lock is released before the original
    is called, in the setter and the query the resolver is called before
    the lock is taken.  The enumeration native is different: it takes the
    shared lock, calls the inverse resolver once for every member while
    holding it, and unlocks last; so its resolver calls are outside the
    lock only when the set is empty. *)
Theorem lock_scope_of_each_operation
    (orig : ptr -> ptr -> bool -> host_state -> bool * host_state) (w : world) :
  (forall sceneLight lightEntity addToPreviousLightList,
     exists result w' t,
       AddSceneLightHook orig sceneLight lightEntity addToPreviousLightList w =
         Some (result, w', t)
       /\ external_calls_unlocked false t = true)
  /\ (forall entityHandle ignoreBlackout,
        exists w' t,
          SET_ENTITY_LIGHTS_IGNORE_ARTIFICIAL_STATE entityHandle ignoreBlackout w =
            Some (tt, w', t)
          /\ external_calls_unlocked false t = true)
  /\ (forall entityHandle,
        exists result t,
          DOES_ENTITY_LIGHTS_IGNORE_ARTIFICIAL_STATE entityHandle w = Some (result, w, t)
          /\ external_calls_unlocked false t = true)
  /\ (exists w' t,
        CLEAR_ALL_ENTITY_LIGHTS_IGNORE_ARTIFICIAL_STATE w = Some (tt, w', t)
        /\ external_calls_unlocked false t = true)
  /\ (exists w' t,
        OnKillNetworkDone w = Some (tt, w', t)
        /\ external_calls_unlocked false t = true)
  /\ (exists handles,
        GET_ALL_ENTITIES_IGNORING_ARTIFICIAL_LIGHTS_STATE w =
          Some (handles, w,
                EvLock Shared :: EvIterate ::
                  (EvGetGuidFromBase <$> elements (g_entitiesIgnoringBlackout w))
                  ++ [EvUnlock Shared])
        /\ external_calls_unlocked false
             (EvLock Shared :: EvIterate ::
                (EvGetGuidFromBase <$> elements (g_entitiesIgnoringBlackout w))
                ++ [EvUnlock Shared])
           = bool_decide (g_entitiesIgnoringBlackout w = ∅)).
Proof.
  repeat apply conj.
  - intros sceneLight lightEntity addToPreviousLightList.
    rewrite AddSceneLightHook_run. cbv zeta.
    do 3 eexists. split; [reflexivity|].
    destruct (lightEntity =? 0); cbn [app];
      destruct (_ =? 0); cbn [negb andb app]; try reflexivity;
      destruct (bool_decide _); cbn [andb];
      destruct (g_disableArtificialLights w =? 0);
      destruct (g_disableArtificialVehLights w =? 0); reflexivity.
  - intros entityHandle ignoreBlackout.
    rewrite SET_run. cbv zeta.
    destruct (_ =? 0); [|destruct ignoreBlackout];
      do 2 eexists; (split; [reflexivity|]); reflexivity.
  - intros entityHandle.
    rewrite DOES_run. cbv zeta.
    do 2 eexists. split; [reflexivity|].
    destruct (_ =? 0); reflexivity.
  - do 2 eexists. split; reflexivity.
  - do 2 eexists. split; reflexivity.
  - rewrite GET_ALL_run. eexists. split; [reflexivity|].
    cbn [external_calls_unlocked is_external_call negb orb andb].
    rewrite external_calls_unlocked_resolving.
    destruct (elements (g_entitiesIgnoringBlackout w)) as [|p l] eqn:E.
    + apply elements_empty_inv in E. apply leibniz_equiv in E.
      symmetry. now apply bool_decide_eq_true_2.
    + symmetry. apply bool_decide_eq_false_2. intros Hempty.
      rewrite Hempty, elements_empty in E. discriminate.
Qed.

(** C4. With either flag address unresolved the shim is a pass-through:
    it returns (no null dereference), it calls the original once, last,
    with its own three arguments and on the host as it found it, it
    returns the original's result, the host afterwards is the one the
    original left, and its trace holds no flag-cell read or write. *)
Theorem hook_unresolved_flags_pass_through
    (orig : ptr -> ptr -> bool -> host_state -> bool * host_state)
    (sceneLight lightEntity : ptr) (addToPreviousLightList : bool) (w : world)
    (Hunresolved : g_disableArtificialLights w = nullptr
                   \/ g_disableArtificialVehLights w = nullptr) :
  let out := orig sceneLight lightEntity addToPreviousLightList (host w) in
  exists t,
    AddSceneLightHook orig sceneLight lightEntity addToPreviousLightList w =
      Some (out.1, with_host out.2 w,
            t ++ [EvOrig sceneLight lightEntity addToPreviousLightList (host w)])
    /\ existsb is_flag_access t = false
    /\ existsb is_external_call t = false.
Proof.
  cbv zeta. rewrite AddSceneLightHook_run. cbv zeta.
  set (shouldOverride := negb _ && _).
  assert (Hc : shouldOverride && negb (g_disableArtificialLights w =? 0)
               && negb (g_disableArtificialVehLights w =? 0) = false).
  { destruct Hunresolved as [-> | ->]; cbn [nullptr N.eqb negb].
    - now rewrite andb_false_r.
    - now rewrite andb_false_r. }
  rewrite Hc. cbn [app].
  eexists. split.
  - rewrite app_assoc. reflexivity.
  - destruct (lightEntity =? 0); cbn [app]; destruct (_ =? 0); split; reflexivity.
Qed.

Lemma hook_unresolved_flags_pass_through_witness :
  exists t,
    AddSceneLightHook Sample.orig0 1 0x1000 true Sample.w_unresolved =
      Some (true, Sample.w_unresolved, t ++ [EvOrig 1 0x1000 true Sample.h0])
    /\ existsb is_flag_access t = false
    /\ existsb is_external_call t = false.
Proof.
  apply (hook_unresolved_flags_pass_through Sample.orig0 1 0x1000 true Sample.w_unresolved).
  left. reflexivity.
Defined.

(** ** The control surface *)

(** C5. For a handle the resolver maps to [nullptr], the setter returns
    without touching the world (for either toggle value), the query
    returns [false], and - whatever the handle - the enumeration returns:
    its result holds exactly the non-zero handles of the members, so a
    member whose inverse resolution gives [0] is left out. *)
Theorem invalid_handle_defaults (w : world) (entityHandle : Z)
    (Hinvalid : GetBaseFromGuid (host w) entityHandle = nullptr) :
  (forall ignoreBlackout,
     SET_ENTITY_LIGHTS_IGNORE_ARTIFICIAL_STATE entityHandle ignoreBlackout w =
       Some (tt, w, [EvGetBaseFromGuid entityHandle]))
  /\ DOES_ENTITY_LIGHTS_IGNORE_ARTIFICIAL_STATE entityHandle w =
       Some (false, w, [EvGetBaseFromGuid entityHandle])
  /\ exists handles t,
       GET_ALL_ENTITIES_IGNORING_ARTIFICIAL_LIGHTS_STATE w = Some (handles, w, t)
       /\ forall handle,
            handle ∈ handles <->
            handle ≠ 0%Z
            /\ exists p, p ∈ g_entitiesIgnoringBlackout w
                         /\ GetGuidFromBase (host w) p = handle.
Proof.
  repeat apply conj.
  - intros ignoreBlackout. rewrite SET_run. cbv zeta. now rewrite Hinvalid.
  - rewrite DOES_run. cbv zeta. now rewrite Hinvalid.
  - rewrite GET_ALL_run. do 2 eexists. split; [reflexivity|].
    intros handle. rewrite list_elem_of_filter, list_elem_of_fmap.
    split.
    + intros (Hnz & p & -> & Hp). split; [assumption|].
      exists p. split; [now apply elem_of_elements | reflexivity].
    + intros (Hnz & p & Hp & <-). split; [assumption|].
      exists p. split; [reflexivity | now apply elem_of_elements].
Qed.

Lemma invalid_handle_defaults_witness :
  GetBaseFromGuid (host Sample.w_marked) 5 = nullptr
  /\ SET_ENTITY_LIGHTS_IGNORE_ARTIFICIAL_STATE 5 true Sample.w_marked =
       Some (tt, Sample.w_marked, [EvGetBaseFromGuid 5])
  /\ DOES_ENTITY_LIGHTS_IGNORE_ARTIFICIAL_STATE 5 Sample.w_marked =
       Some (false, Sample.w_marked, [EvGetBaseFromGuid 5]).
Proof.
  split; [reflexivity|].
  destruct (invalid_handle_defaults Sample.w_marked 5 eq_refl) as (Hset & Hdoes & _).
  split; [apply Hset | exact Hdoes].
Defined.

(** A handle that resolves to [nullptr]: the setter with toggle [true]
    leaves the set alone and the membership query on the null identity
    answers [false]; and even a set that did hold the null address would
    not make the query answer [true]. *)
Lemma add_null_then_contains_is_false :
  GetBaseFromGuid (host Sample.w_empty) 5 = nullptr
  /\ (SET_ENTITY_LIGHTS_IGNORE_ARTIFICIAL_STATE 5 true ;;
      DoesEntityIgnoreBlackout nullptr) Sample.w_empty =
       Some (false, Sample.w_empty, [EvGetBaseFromGuid 5])
  /\ (scoped_lock Exclusive (set_insert nullptr) ;;
      DoesEntityIgnoreBlackout nullptr) Sample.w_empty =
       Some (false, with_entities ({[nullptr]} ∪ ∅) Sample.w_empty,
             [EvLock Exclusive; EvInsert nullptr; EvUnlock Exclusive]).
Proof. repeat split. Qed.

(** C6 (amended). For a handle that resolves to the identity [i]: if [i]
    is not null, the setter with toggle [true] followed by the membership
    query on [i] gives [true]; and for every [i], null included, the
    setter with toggle [false] followed by the membership query on [i]
    gives [false]; both whatever the set held before. *)
Theorem add_then_contains_remove_then_contains (w : world) (entityHandle : Z) :
  let i := GetBaseFromGuid (host w) entityHandle in
  (i ≠ nullptr ->
   exists w1 t1 t,
     SET_ENTITY_LIGHTS_IGNORE_ARTIFICIAL_STATE entityHandle true w = Some (tt, w1, t1)
     /\ DoesEntityIgnoreBlackout i w1 = Some (true, w1, t)
     /\ host w1 = host w)
  /\ (exists w2 t2 t,
        SET_ENTITY_LIGHTS_IGNORE_ARTIFICIAL_STATE entityHandle false w = Some (tt, w2, t2)
        /\ DoesEntityIgnoreBlackout i w2 = Some (false, w2, t)
        /\ host w2 = host w).
Proof.
  cbv zeta. split.
  - intros Hi. rewrite SET_run. cbv zeta.
    rewrite (eqb_nullptr_false _ Hi).
    do 3 eexists. split; [reflexivity|].
    rewrite DoesEntityIgnoreBlackout_run, (eqb_nullptr_false _ Hi).
    cbn [g_entitiesIgnoringBlackout with_entities negb andb].
    rewrite bool_decide_eq_true_2
      by (apply elem_of_union; left; now apply elem_of_singleton).
    split; reflexivity.
  - rewrite SET_run. cbv zeta.
    destruct (GetBaseFromGuid (host w) entityHandle =? 0) eqn:E.
    + do 3 eexists. split; [reflexivity|].
      rewrite DoesEntityIgnoreBlackout_run, E. split; reflexivity.
    + do 3 eexists. split; [reflexivity|].
      rewrite DoesEntityIgnoreBlackout_run, E.
      cbn [g_entitiesIgnoringBlackout with_entities negb andb].
      rewrite bool_decide_eq_false_2
        by (apply not_elem_of_difference; right; now apply elem_of_singleton).
      split; reflexivity.
Qed.

Lemma add_then_contains_remove_then_contains_witness :
  GetBaseFromGuid (host Sample.w_empty) 42 ≠ nullptr
  /\ exists w1 t1 t,
       SET_ENTITY_LIGHTS_IGNORE_ARTIFICIAL_STATE 42 true Sample.w_empty = Some (tt, w1, t1)
       /\ DoesEntityIgnoreBlackout 0x2000 w1 = Some (true, w1, t)
       /\ host w1 = host Sample.w_empty.
Proof.
  split; [discriminate|].
  apply (proj1 (add_then_contains_remove_then_contains Sample.w_empty 42)).
  discriminate.
Defined.

(** C7. Clear-all and the teardown callback both return with the set
    empty and nothing else changed; in that state the membership query is
    [false] for every identity, the query native is [false] for every
    handle, and the enumeration is the empty list. *)
Theorem clear_and_teardown_empty_allow_list (w : world) :
  let w' := with_entities ∅ w in
  CLEAR_ALL_ENTITY_LIGHTS_IGNORE_ARTIFICIAL_STATE w =
    Some (tt, w', [EvLock Exclusive; EvClear; EvUnlock Exclusive])
  /\ OnKillNetworkDone w =
       Some (tt, w', [EvLock Exclusive; EvClear; EvUnlock Exclusive])
  /\ g_entitiesIgnoringBlackout w' = ∅
  /\ (forall i, exists t, DoesEntityIgnoreBlackout i w' = Some (false, w', t))
  /\ (forall entityHandle,
        exists t,
          DOES_ENTITY_LIGHTS_IGNORE_ARTIFICIAL_STATE entityHandle w' = Some (false, w', t))
  /\ GET_ALL_ENTITIES_IGNORING_ARTIFICIAL_LIGHTS_STATE w' =
       Some ([], w', [EvLock Shared; EvIterate; EvUnlock Shared]).
Proof.
  cbv zeta. repeat apply conj.
  - apply clear_run.
  - apply clear_run.
  - reflexivity.
  - intros i. rewrite DoesEntityIgnoreBlackout_run.
    cbn [g_entitiesIgnoringBlackout with_entities].
    rewrite bool_decide_eq_false_2 by apply not_elem_of_empty.
    rewrite andb_false_r. eexists. reflexivity.
  - intros entityHandle. rewrite DOES_run. cbv zeta.
    cbn [g_entitiesIgnoringBlackout with_entities].
    rewrite bool_decide_eq_false_2 by apply not_elem_of_empty.
    rewrite andb_false_r. eexists. reflexivity.
  - rewrite GET_ALL_run.
    cbn [g_entitiesIgnoringBlackout with_entities].
    rewrite elements_empty. reflexivity.
Qed.

(** C8. A null light entity gives the null identity without any memory
    read; the membership query on the null identity answers [false]
    with an empty trace (no lock, no lookup) and an unchanged world; and
    the whole shim on a null light entity does nothing but call the
    original. *)
Theorem null_light_entity_null_identity
    (orig : ptr -> ptr -> bool -> host_state -> bool * host_state)
    (sceneLight : ptr) (addToPreviousLightList : bool) (w : world) :
  let out := orig sceneLight nullptr addToPreviousLightList (host w) in
  GetParentEntityFromLightEntity nullptr w = Some (nullptr, w, [])
  /\ DoesEntityIgnoreBlackout nullptr w = Some (false, w, [])
  /\ AddSceneLightHook orig sceneLight nullptr addToPreviousLightList w =
       Some (out.1, with_host out.2 w,
             [EvOrig sceneLight nullptr addToPreviousLightList (host w)]).
Proof.
  cbv zeta. repeat apply conj; try reflexivity.
  rewrite AddSceneLightHook_run. reflexivity.
Qed.

(** ** Invariants *)

Lemma no_insert_among_resolutions p members :
  existsb (inserts p) (EvGetGuidFromBase <$> members) = false.
Proof. induction members; [reflexivity | assumption]. Qed.

Lemma discard_run {A} (m : M A) w x w1 t1 :
  m w = Some (x, w1, t1) -> discard m w = Some (tt, w1, t1).
Proof. intros E. unfold discard, bind, ret. rewrite E. now rewrite app_nil_r. Qed.

(** Every operation returns, keeps the null address out of the set, and
    never inserts it. *)
Lemma run_op_keeps_null_out orig o w :
  nullptr ∉ g_entitiesIgnoringBlackout w ->
  exists w' t,
    run_op orig o w = Some (tt, w', t)
    /\ (nullptr ∉ g_entitiesIgnoringBlackout w')
    /\ existsb (inserts nullptr) t = false.
Proof.
  intros Hinv. destruct o as [h b | h | | | | sl le flag | h']; cbn [run_op].
  - rewrite SET_run. cbv zeta.
    destruct (N.eqb_spec (GetBaseFromGuid (host w) h) 0) as [E|E]; [|destruct b];
      do 2 eexists; (split; [reflexivity|]);
      cbn [g_entitiesIgnoringBlackout with_entities existsb inserts orb].
    + split; [assumption | reflexivity].
    + split.
      * intros Hin. apply elem_of_union in Hin.
        destruct Hin as [Hin|Hin]; [|contradiction].
        apply elem_of_singleton in Hin. now apply E.
      * apply N.eqb_neq in E. unfold nullptr. now rewrite E.
    + split; [|reflexivity].
      intros Hin. apply elem_of_difference in Hin. now destruct Hin.
  - erewrite discard_run by apply DOES_run.
    do 2 eexists. split; [reflexivity|]. split; [assumption|].
    destruct (_ =? 0); reflexivity.
  - do 2 eexists. split; [reflexivity|].
    split; [apply not_elem_of_empty | reflexivity].
  - erewrite discard_run by apply GET_ALL_run.
    do 2 eexists. split; [reflexivity|]. split; [assumption|].
    cbn [existsb inserts orb].
    rewrite existsb_app, no_insert_among_resolutions. reflexivity.
  - do 2 eexists. split; [reflexivity|].
    split; [apply not_elem_of_empty | reflexivity].
  - erewrite discard_run by apply AddSceneLightHook_run.
    do 2 eexists. split; [reflexivity|]. split; [assumption|].
    rewrite !existsb_app.
    destruct (le =? 0); cbn [existsb inserts orb];
      destruct (_ =? 0); cbn [existsb inserts orb negb andb]; try reflexivity;
      destruct (bool_decide _); cbn [andb];
      destruct (g_disableArtificialLights w =? 0);
      destruct (g_disableArtificialVehLights w =? 0); reflexivity.
  - do 2 eexists. split; [reflexivity|]. split; [assumption | reflexivity].
Qed.

Lemma run_ops_keeps_null_out orig os : forall w,
  nullptr ∉ g_entitiesIgnoringBlackout w ->
  exists w' t,
    run_ops orig os w = Some (tt, w', t)
    /\ (nullptr ∉ g_entitiesIgnoringBlackout w')
    /\ existsb (inserts nullptr) t = false.
Proof.
  induction os as [|o os IH]; intros w Hinv.
  - exists w, []. repeat split. assumption.
  - destruct (run_op_keeps_null_out orig o w Hinv) as (w1 & t1 & Hrun1 & Hinv1 & Hquiet1).
    destruct (IH w1 Hinv1) as (w2 & t2 & Hrun2 & Hinv2 & Hquiet2).
    exists w2, (t1 ++ t2). cbn [run_ops].
    rewrite (bind_run _ _ _ _ _ _ Hrun1), Hrun2.
    repeat split; [assumption|].
    now rewrite existsb_app, Hquiet1, Hquiet2.
Qed.

(** C9. Starting from the state the component has after startup (empty
    set), every sequence of natives, teardown signals and shim calls,
    interleaved with arbitrary changes of the host, runs to completion,
    ends in a state whose set does not hold the null address, and never
    performs an insertion of the null address. *)
Theorem null_never_in_allow_list
    (orig : ptr -> ptr -> bool -> host_state -> bool * host_state)
    (os : list op) (lights vehLights : ptr) (h : host_state) :
  exists w t,
    run_ops orig os (startup lights vehLights h) = Some (tt, w, t)
    /\ (nullptr ∉ g_entitiesIgnoringBlackout w)
    /\ existsb (inserts nullptr) t = false.
Proof.
  apply run_ops_keeps_null_out. apply not_elem_of_empty.
Qed.

(** C10. The shim always returns and leaves the set as it was; its trace
    holds no insert, erase or clear, and its set and lock events are
    either none at all or exactly one lookup between taking and releasing
    the shared lock. *)
Theorem hook_leaves_allow_list_unchanged
    (orig : ptr -> ptr -> bool -> host_state -> bool * host_state)
    (sceneLight lightEntity : ptr) (addToPreviousLightList : bool) (w : world) :
  exists result w' t,
    AddSceneLightHook orig sceneLight lightEntity addToPreviousLightList w =
      Some (result, w', t)
    /\ g_entitiesIgnoringBlackout w' = g_entitiesIgnoringBlackout w
    /\ existsb is_set_mutation t = false
    /\ (List.filter is_set_or_lock_event t = []
        \/ exists p, List.filter is_set_or_lock_event t =
                       [EvLock Shared; EvFind p; EvUnlock Shared]).
Proof.
  rewrite AddSceneLightHook_run. cbv zeta.
  do 3 eexists. split; [reflexivity|]. split; [reflexivity|].
  destruct (lightEntity =? 0); cbn [app];
    destruct (_ =? 0); cbn [negb andb app];
    try (destruct (bool_decide _); cbn [andb];
         destruct (g_disableArtificialLights w =? 0);
         destruct (g_disableArtificialVehLights w =? 0));
    (split; [reflexivity|]);
    cbn; eauto.
Qed.

(** ** Further properties of the control surface *)

Lemma run_ops_app orig os1 : forall os2 w w1 t1,
  run_ops orig os1 w = Some (tt, w1, t1) ->
  run_ops orig (os1 ++ os2) w =
    match run_ops orig os2 w1 with
    | Some (r, w2, t2) => Some (r, w2, t1 ++ t2)
    | None => None
    end.
Proof.
  induction os1 as [|o os1 IH]; intros os2 w w1 t1 Hrun.
  - injection Hrun as <- <-. cbn [app]. now destruct (run_ops orig os2 w) as [[[r w2] t2]|].
  - cbn [app run_ops] in *. unfold bind in *.
    destruct (run_op orig o w) as [[[[] wa] ta]|]; [|discriminate].
    destruct (run_ops orig os1 wa) as [[[[] wb] tb]|] eqn:E; [|discriminate].
    injection Hrun as <- <-.
    rewrite (IH os2 wa wb tb E).
    destruct (run_ops orig os2 wb) as [[[r w2] t2]|]; [|reflexivity].
    now rewrite app_assoc.
Qed.

Lemma lock_run_app t1 : forall held t2,
  lock_run held (t1 ++ t2) =
    match lock_run held t1 with
    | Some held' => lock_run held' t2
    | None => None
    end.
Proof.
  induction t1 as [|e t1 IH]; intros held t2; cbn [app lock_run]; [reflexivity|].
  destruct (lock_step held e); [apply IH | reflexivity].
Qed.

Lemma lock_run_resolutions m members t :
  lock_run (Some m) ((EvGetGuidFromBase <$> members) ++ t) = lock_run (Some m) t.
Proof. induction members; [reflexivity | assumption]. Qed.

(** What every single operation does to the parts of the state that the
    invariants below talk about. *)
Lemma run_op_facts orig o w :
  exists w' t,
    run_op orig o w = Some (tt, w', t)
    /\ g_disableArtificialLights w' = g_disableArtificialLights w
    /\ g_disableArtificialVehLights w' = g_disableArtificialVehLights w
    /\ lock_run None t = Some None
    /\ (forall p, p ∈ g_entitiesIgnoringBlackout w' ->
                  p ∈ g_entitiesIgnoringBlackout w \/ existsb (inserts p) t = true).
Proof.
  destruct o as [h b | h | | | | sl le flag | h']; cbn [run_op].
  - rewrite SET_run. cbv zeta.
    destruct (GetBaseFromGuid (host w) h =? 0); [|destruct b];
      do 2 eexists; (split; [reflexivity|]);
      (split; [reflexivity|]); (split; [reflexivity|]); (split; [reflexivity|]);
      cbn [g_entitiesIgnoringBlackout with_entities existsb inserts orb];
      intros p Hp.
    + now left.
    + apply elem_of_union in Hp. destruct Hp as [Hp|Hp]; [|now left].
      apply elem_of_singleton in Hp. subst p. right. now rewrite N.eqb_refl.
    + apply elem_of_difference in Hp. left. now destruct Hp.
  - erewrite discard_run by apply DOES_run.
    do 2 eexists. split; [reflexivity|]. repeat split; try now left.
    destruct (_ =? 0); reflexivity.
  - do 2 eexists. split; [reflexivity|]. repeat split.
    intros p Hp. now apply not_elem_of_empty in Hp.
  - erewrite discard_run by apply GET_ALL_run.
    do 2 eexists. split; [reflexivity|]. repeat split; try now left.
    cbn [lock_run lock_step]. now rewrite lock_run_resolutions.
  - do 2 eexists. split; [reflexivity|]. repeat split.
    intros p Hp. now apply not_elem_of_empty in Hp.
  - erewrite discard_run by apply AddSceneLightHook_run.
    do 2 eexists. split; [reflexivity|]. repeat split; try now left.
    destruct (le =? 0); cbn [app];
      destruct (_ =? 0); cbn [negb andb app]; try reflexivity;
      destruct (bool_decide _); cbn [andb];
      destruct (g_disableArtificialLights w =? 0);
      destruct (g_disableArtificialVehLights w =? 0); reflexivity.
  - do 2 eexists. split; [reflexivity|]. repeat split. now left.
Qed.

Lemma run_ops_facts orig os : forall w,
  exists w' t,
    run_ops orig os w = Some (tt, w', t)
    /\ g_disableArtificialLights w' = g_disableArtificialLights w
    /\ g_disableArtificialVehLights w' = g_disableArtificialVehLights w
    /\ lock_run None t = Some None
    /\ (forall p, p ∈ g_entitiesIgnoringBlackout w' ->
                  p ∈ g_entitiesIgnoringBlackout w \/ existsb (inserts p) t = true).
Proof.
  induction os as [|o os IH]; intros w.
  - exists w, []. repeat split. now left.
  - destruct (run_op_facts orig o w) as (w1 & t1 & Hrun1 & Ha1 & Hb1 & Hl1 & Hp1).
    destruct (IH w1) as (w2 & t2 & Hrun2 & Ha2 & Hb2 & Hl2 & Hp2).
    exists w2, (t1 ++ t2). cbn [run_ops].
    rewrite (bind_run _ _ _ _ _ _ Hrun1), Hrun2.
    split; [reflexivity|]. split; [congruence|]. split; [congruence|]. split.
    + now rewrite lock_run_app, Hl1.
    + intros p Hp. rewrite existsb_app.
      destruct (Hp2 p Hp) as [Hin | Hins].
      * destruct (Hp1 p Hin) as [Hin0 | Hins]; [now left|].
        right. now rewrite Hins.
      * right. rewrite Hins. apply orb_true_r.
Qed.

Lemma gset_ext (s1 s2 : gset N) : (forall x, x ∈ s1 <-> x ∈ s2) -> s1 = s2.
Proof. intros H. apply leibniz_equiv. intros x. apply H. Qed.

Ltac set_pointwise :=
  let x := fresh "x" in
  apply gset_ext; intros x;
  rewrite ?elem_of_union, ?elem_of_difference, ?elem_of_union, ?elem_of_singleton,
    ?elem_of_empty;
  first [ tauto
        | match goal with
          | |- context [x = ?i] => destruct (N.eq_dec x i); tauto
          end ].

(** X1. Two setter calls on the same handle: the second one decides.  The
    world after [SET h b1; SET h b2] is the world after [SET h b2] alone;
    with [b1 = b2] this says that marking twice, or unmarking twice, is
    the same as doing it once. *)
Theorem setter_last_write_wins (w : world) (entityHandle : Z) (b1 b2 : bool) :
  exists w1 t1 w2 t2 t2',
    SET_ENTITY_LIGHTS_IGNORE_ARTIFICIAL_STATE entityHandle b1 w = Some (tt, w1, t1)
    /\ SET_ENTITY_LIGHTS_IGNORE_ARTIFICIAL_STATE entityHandle b2 w1 = Some (tt, w2, t2)
    /\ SET_ENTITY_LIGHTS_IGNORE_ARTIFICIAL_STATE entityHandle b2 w = Some (tt, w2, t2').
Proof.
  set (i := GetBaseFromGuid (host w) entityHandle).
  destruct (i =? 0) eqn:E.
  - exists w, [EvGetBaseFromGuid entityHandle].
    rewrite !SET_run. cbv zeta. fold i. rewrite E.
    do 3 eexists. repeat split.
  - destruct b1, b2;
      eexists; eexists; eexists (with_entities _ w); do 2 eexists;
      (split; [rewrite SET_run; cbv zeta; fold i; rewrite E; reflexivity|]);
      (split; [|rewrite SET_run; cbv zeta; fold i; rewrite E; reflexivity]);
      rewrite SET_run; cbv zeta;
      cbn [host with_entities g_entitiesIgnoringBlackout]; fold i; rewrite E;
      apply (f_equal (fun s => Some (tt, with_entities s w, _)));
      set_pointwise.
Qed.

(** X2. The query native after a setter call, on any two handles: a
    handle that resolves to null reads [false]; a handle that resolves to
    the identity the setter was called on reads the toggle just written;
    any other handle reads what it read before the setter. *)
Theorem query_after_setter (w : world) (entityHandle : Z) (ignoreBlackout : bool)
    (queried : Z) :
  let i := GetBaseFromGuid (host w) entityHandle in
  let j := GetBaseFromGuid (host w) queried in
  exists w1 t1 t,
    SET_ENTITY_LIGHTS_IGNORE_ARTIFICIAL_STATE entityHandle ignoreBlackout w
      = Some (tt, w1, t1)
    /\ DOES_ENTITY_LIGHTS_IGNORE_ARTIFICIAL_STATE queried w1 =
         Some (if j =? 0 then false
               else if j =? i then ignoreBlackout
               else bool_decide (j ∈ g_entitiesIgnoringBlackout w),
               w1, t).
Proof.
  cbv zeta. rewrite SET_run. cbv zeta.
  set (i := GetBaseFromGuid (host w) entityHandle).
  set (j := GetBaseFromGuid (host w) queried).
  assert (Hpick : forall (s : gset N) (v : bool),
            (j ≠ 0 -> bool_decide (j ∈ s) = v) ->
            negb (j =? 0) && bool_decide (j ∈ s) = if j =? 0 then false else v).
  { intros s v Hv. destruct (N.eqb_spec j 0) as [Ej|Ej]; [reflexivity|].
    cbn [negb andb]. now apply Hv. }
  destruct (N.eqb_spec i 0) as [Ei|Ei]; [|destruct ignoreBlackout];
    do 3 eexists; (split; [reflexivity|]); rewrite DOES_run; cbv zeta;
    cbn [host with_entities g_entitiesIgnoringBlackout]; fold j;
    (erewrite Hpick; [reflexivity|]); intros Hj.
  - destruct (N.eqb_spec j i) as [Eji|Eji]; [congruence | reflexivity].
  - destruct (N.eqb_spec j i) as [Eji|Eji].
    + apply bool_decide_eq_true_2.
      apply elem_of_union. left. now apply elem_of_singleton.
    + apply bool_decide_ext.
      rewrite elem_of_union, elem_of_singleton. tauto.
  - destruct (N.eqb_spec j i) as [Eji|Eji].
    + apply bool_decide_eq_false_2.
      rewrite elem_of_difference, elem_of_singleton. tauto.
    + apply bool_decide_ext.
      rewrite elem_of_difference, elem_of_singleton. tauto.
Qed.

(** X3. Marking makes a live handle show up in the enumeration, and
    unmarking makes it disappear.  For a handle [h ≠ 0] that resolves to a
    live object whose inverse resolution is [h] again: after the setter
    with [true] the enumeration contains [h]; and if no other member
    resolves back to [h], after the setter with [false] it does not. *)
Theorem marked_handle_is_enumerated (w : world) (entityHandle : Z)
    (Hlive : GetBaseFromGuid (host w) entityHandle ≠ nullptr)
    (Hback : GetGuidFromBase (host w) (GetBaseFromGuid (host w) entityHandle)
             = entityHandle)
    (Hnz : entityHandle ≠ 0%Z) :
  (exists w1 t1 handles t,
     SET_ENTITY_LIGHTS_IGNORE_ARTIFICIAL_STATE entityHandle true w = Some (tt, w1, t1)
     /\ GET_ALL_ENTITIES_IGNORING_ARTIFICIAL_LIGHTS_STATE w1 = Some (handles, w1, t)
     /\ entityHandle ∈ handles)
  /\ ((forall p, p ∈ g_entitiesIgnoringBlackout w ->
                 GetGuidFromBase (host w) p = entityHandle ->
                 p = GetBaseFromGuid (host w) entityHandle) ->
      exists w2 t2 handles t,
        SET_ENTITY_LIGHTS_IGNORE_ARTIFICIAL_STATE entityHandle false w = Some (tt, w2, t2)
        /\ GET_ALL_ENTITIES_IGNORING_ARTIFICIAL_LIGHTS_STATE w2 = Some (handles, w2, t)
        /\ entityHandle ∉ handles).
Proof.
  split; [|intros Hinj]; rewrite SET_run; cbv zeta;
    rewrite (eqb_nullptr_false _ Hlive);
    do 4 eexists; (split; [reflexivity|]); rewrite GET_ALL_run;
    (split; [reflexivity|]);
    cbn [host with_entities g_entitiesIgnoringBlackout];
    rewrite list_elem_of_filter, list_elem_of_fmap.
  - split; [assumption|].
    exists (GetBaseFromGuid (host w) entityHandle). split; [now symmetry|].
    apply elem_of_elements, elem_of_union. left. now apply elem_of_singleton.
  - intros (_ & p & Hp & Hin).
    apply elem_of_elements, elem_of_difference in Hin. destruct Hin as [Hin Hnot].
    apply Hnot, elem_of_singleton, Hinj; [assumption | now symmetry].
Qed.

Lemma marked_handle_is_enumerated_witness :
  exists w1 t1 handles t,
    SET_ENTITY_LIGHTS_IGNORE_ARTIFICIAL_STATE 42 true Sample.w_empty = Some (tt, w1, t1)
    /\ GET_ALL_ENTITIES_IGNORING_ARTIFICIAL_LIGHTS_STATE w1 = Some (handles, w1, t)
    /\ 42%Z ∈ handles.
Proof.
  apply (proj1 (marked_handle_is_enumerated Sample.w_empty 42
                  ltac:(discriminate) eq_refl ltac:(discriminate))).
Defined.

(** X4. Mark, enumerate, unmark, enumerate, starting from an empty set
    and for a live handle [h ≠ 0] that resolves back to itself: the first
    enumeration is exactly [[h]] and the second is empty. *)
Theorem mark_enumerate_unmark_enumerate (w : world) (entityHandle : Z)
    (Hempty : g_entitiesIgnoringBlackout w = ∅)
    (Hlive : GetBaseFromGuid (host w) entityHandle ≠ nullptr)
    (Hback : GetGuidFromBase (host w) (GetBaseFromGuid (host w) entityHandle)
             = entityHandle)
    (Hnz : entityHandle ≠ 0%Z) :
  exists w1 t1 w2 t2,
    (SET_ENTITY_LIGHTS_IGNORE_ARTIFICIAL_STATE entityHandle true ;;
     GET_ALL_ENTITIES_IGNORING_ARTIFICIAL_LIGHTS_STATE) w
      = Some ([entityHandle], w1, t1)
    /\ (SET_ENTITY_LIGHTS_IGNORE_ARTIFICIAL_STATE entityHandle false ;;
        GET_ALL_ENTITIES_IGNORING_ARTIFICIAL_LIGHTS_STATE) w1
         = Some ([], w2, t2)
    /\ g_entitiesIgnoringBlackout w2 = ∅.
Proof.
  set (i := GetBaseFromGuid (host w) entityHandle) in *.
  assert (Hset1 : SET_ENTITY_LIGHTS_IGNORE_ARTIFICIAL_STATE entityHandle true w =
                    Some (tt, with_entities {[i]} w,
                          [EvGetBaseFromGuid entityHandle; EvLock Exclusive;
                           EvInsert i; EvUnlock Exclusive])).
  { rewrite SET_run. cbv zeta. fold i.
    rewrite (eqb_nullptr_false _ Hlive), Hempty.
    now rewrite (right_id_L ∅ (∪)). }
  assert (Hset2 : SET_ENTITY_LIGHTS_IGNORE_ARTIFICIAL_STATE entityHandle false
                    (with_entities {[i]} w) =
                    Some (tt, with_entities ∅ w,
                          [EvGetBaseFromGuid entityHandle; EvLock Exclusive;
                           EvErase i; EvUnlock Exclusive])).
  { rewrite SET_run. cbv zeta.
    cbn [host with_entities g_entitiesIgnoringBlackout]. fold i.
    rewrite (eqb_nullptr_false _ Hlive).
    apply (f_equal (fun s => Some (tt, with_entities s w, _))).
    set_pointwise. }
  do 4 eexists. split; [|split].
  - rewrite (bind_run _ _ _ _ _ _ Hset1), GET_ALL_run.
    cbn [host with_entities g_entitiesIgnoringBlackout].
    rewrite elements_singleton. cbn [fmap list_fmap].
    rewrite filter_cons, decide_True by (fold i; congruence).
    fold i. rewrite Hback. reflexivity.
  - rewrite (bind_run _ _ _ _ _ _ Hset2), GET_ALL_run.
    cbn [host with_entities g_entitiesIgnoringBlackout].
    rewrite elements_empty. reflexivity.
  - reflexivity.
Qed.

Lemma mark_enumerate_unmark_enumerate_witness :
  exists w1 t1 w2 t2,
    (SET_ENTITY_LIGHTS_IGNORE_ARTIFICIAL_STATE 42 true ;;
     GET_ALL_ENTITIES_IGNORING_ARTIFICIAL_LIGHTS_STATE) Sample.w_empty
      = Some ([42%Z], w1, t1)
    /\ (SET_ENTITY_LIGHTS_IGNORE_ARTIFICIAL_STATE 42 false ;;
        GET_ALL_ENTITIES_IGNORING_ARTIFICIAL_LIGHTS_STATE) w1
         = Some ([], w2, t2)
    /\ g_entitiesIgnoringBlackout w2 = ∅.
Proof.
  apply (mark_enumerate_unmark_enumerate Sample.w_empty 42).
  - reflexivity.
  - discriminate.
  - reflexivity.
  - discriminate.
Defined.

(** X5. The enumeration returns, leaves the world as it was, calls the
    inverse resolver exactly once per member, and returns at most as many
    handles as the set has members; when the inverse resolver is
    injective on the members, no handle is returned twice. *)
Theorem enumeration_size_and_duplicates (w : world) :
  exists handles t,
    GET_ALL_ENTITIES_IGNORING_ARTIFICIAL_LIGHTS_STATE w = Some (handles, w, t)
    /\ (length handles <= size (g_entitiesIgnoringBlackout w))%nat
    /\ length (List.filter is_external_call t) = size (g_entitiesIgnoringBlackout w)
    /\ ((forall p q, p ∈ g_entitiesIgnoringBlackout w ->
                     q ∈ g_entitiesIgnoringBlackout w ->
                     GetGuidFromBase (host w) p = GetGuidFromBase (host w) q ->
                     p = q) ->
        NoDup handles).
Proof.
  rewrite GET_ALL_run. do 2 eexists. split; [reflexivity|].
  set (members := elements (g_entitiesIgnoringBlackout w)).
  assert (Hsize : size (g_entitiesIgnoringBlackout w) = length members) by reflexivity.
  rewrite Hsize. repeat apply conj.
  - etransitivity; [apply length_filter|]. now rewrite length_fmap.
  - cbn [List.filter is_external_call].
    clear Hsize. induction members as [|p l IH]; [reflexivity|].
    cbn [fmap list_fmap app List.filter is_external_call length].
    f_equal. exact IH.
  - intros Hinj. apply NoDup_filter. apply NoDup_fmap_2_strong.
    + intros p q Hp Hq. apply Hinj; now apply elem_of_elements.
    + apply NoDup_elements.
Qed.

Lemma enumeration_size_and_duplicates_witness :
  exists handles t,
    GET_ALL_ENTITIES_IGNORING_ARTIFICIAL_LIGHTS_STATE Sample.w_marked
      = Some (handles, Sample.w_marked, t)
    /\ NoDup handles.
Proof.
  destruct (enumeration_size_and_duplicates Sample.w_marked)
    as (handles & t & Hrun & _ & _ & Hnodup).
  exists handles, t. split; [exact Hrun|].
  apply Hnodup. intros p q Hp Hq _.
  change (p ∈ ({[ 0x2000 ]} : gset N)) in Hp.
  change (q ∈ ({[ 0x2000 ]} : gset N)) in Hq.
  apply elem_of_singleton in Hp. apply elem_of_singleton in Hq.
  now rewrite Hp, Hq.
Defined.

(** ** Further properties of the shim *)

(** X6. The shim writes flag cells exactly when its own membership query
    on the parent it derived answers [true] and both flag addresses are
    non-null; and in every case it calls the original exactly once. *)
Theorem hook_overrides_exactly_when
    (orig : ptr -> ptr -> bool -> host_state -> bool * host_state)
    (sceneLight lightEntity : ptr) (addToPreviousLightList : bool) (w : world) :
  exists parentEntity t0 shouldOverride t1 result w' t,
    GetParentEntityFromLightEntity lightEntity w = Some (parentEntity, w, t0)
    /\ DoesEntityIgnoreBlackout parentEntity w = Some (shouldOverride, w, t1)
    /\ AddSceneLightHook orig sceneLight lightEntity addToPreviousLightList w =
         Some (result, w', t)
    /\ existsb is_flag_store t =
         shouldOverride
         && negb (g_disableArtificialLights w =? 0)
         && negb (g_disableArtificialVehLights w =? 0)
    /\ length (List.filter is_orig_call t) = 1%nat.
Proof.
  rewrite GetParentEntityFromLightEntity_run.
  do 2 eexists.
  exists (negb ((if lightEntity =? 0 then nullptr
                 else ptr_at (host w) (lightEntity + LIGHT_ENTITY_PARENT_OFFSET)) =? 0)
          && bool_decide ((if lightEntity =? 0 then nullptr
                           else ptr_at (host w) (lightEntity + LIGHT_ENTITY_PARENT_OFFSET))
                          ∈ g_entitiesIgnoringBlackout w)).
  rewrite DoesEntityIgnoreBlackout_run, AddSceneLightHook_run. cbv zeta.
  do 4 eexists. split; [reflexivity|]. split; [reflexivity|]. split; [reflexivity|].
  destruct (lightEntity =? 0); cbn [app];
    destruct (_ =? 0); cbn [negb andb app];
    try (destruct (bool_decide _); cbn [andb];
         destruct (g_disableArtificialLights w =? 0);
         destruct (g_disableArtificialVehLights w =? 0));
    split; reflexivity.
Qed.

(** X7. With an original that leaves every [bool] cell as it found it,
    the shim as a whole leaves every [bool] cell as it found it - for a
    marked entity as for any other, and whether or not the two flag
    addresses are resolved or distinct. *)
Theorem hook_transparent_for_flag_preserving_original
    (orig : ptr -> ptr -> bool -> host_state -> bool * host_state)
    (sceneLight lightEntity : ptr) (addToPreviousLightList : bool) (w : world)
    (Hpreserves : forall h a,
        bool_at (orig sceneLight lightEntity addToPreviousLightList h).2 a
        = bool_at h a) :
  exists result w' t,
    AddSceneLightHook orig sceneLight lightEntity addToPreviousLightList w =
      Some (result, w', t)
    /\ forall a, bool_at (host w') a = bool_at (host w) a.
Proof.
  rewrite AddSceneLightHook_run. cbv zeta.
  do 3 eexists. split; [reflexivity|].
  intros a. cbn [host with_host].
  destruct (_ && _ && _).
  - cbn [bool_at write_bool]. rewrite Hpreserves. cbn [bool_at write_bool].
    destruct (N.eqb_spec a (g_disableArtificialVehLights w)) as [->|_]; [reflexivity|].
    destruct (N.eqb_spec a (g_disableArtificialLights w)) as [->|_]; reflexivity.
  - apply Hpreserves.
Qed.

Lemma hook_transparent_for_flag_preserving_original_witness :
  exists result w' t,
    AddSceneLightHook Sample.orig0 1 0x1000 true Sample.w_marked = Some (result, w', t)
    /\ forall a, bool_at (host w') a = bool_at (host Sample.w_marked) a.
Proof.
  apply (hook_transparent_for_flag_preserving_original
           Sample.orig0 1 0x1000 true Sample.w_marked).
  intros h a. reflexivity.
Defined.

(** ** Further invariants of operation sequences *)

(** X8. The two flag addresses are fixed once startup is over: no
    sequence of natives, teardown signals, shim calls and host changes
    alters [g_disableArtificialLights] or [g_disableArtificialVehLights],
    and every such sequence runs to completion. *)
Theorem flag_addresses_never_change
    (orig : ptr -> ptr -> bool -> host_state -> bool * host_state)
    (os : list op) (w : world) :
  exists w' t,
    run_ops orig os w = Some (tt, w', t)
    /\ g_disableArtificialLights w' = g_disableArtificialLights w
    /\ g_disableArtificialVehLights w' = g_disableArtificialVehLights w.
Proof.
  destruct (run_ops_facts orig os w) as (w' & t & Hrun & Ha & Hb & _).
  now exists w', t.
Qed.

(** X9. Every member of the set was put there by an insertion of the
    setter: after any sequence of operations from the startup state,
    each member of the set occurs as the argument of an insert event of
    the sequence's trace. *)
Theorem members_were_inserted
    (orig : ptr -> ptr -> bool -> host_state -> bool * host_state)
    (os : list op) (lights vehLights : ptr) (h : host_state) :
  exists w t,
    run_ops orig os (startup lights vehLights h) = Some (tt, w, t)
    /\ forall p, p ∈ g_entitiesIgnoringBlackout w -> existsb (inserts p) t = true.
Proof.
  destruct (run_ops_facts orig os (startup lights vehLights h))
    as (w & t & Hrun & _ & _ & _ & Hmem).
  exists w, t. split; [assumption|].
  intros p Hp. destruct (Hmem p Hp) as [Hin|Hins]; [|assumption].
  now apply not_elem_of_empty in Hin.
Qed.

(** X10. Locking discipline of the whole component: over any sequence of
    operations the mutex is never taken while already held, every release
    matches the mode of the preceding acquisition, every lookup or
    iteration of the set happens with the mutex held, every insert, erase
    and clear happens with it held exclusively, and the mutex is free
    when the sequence ends. *)
Theorem set_accesses_are_locked
    (orig : ptr -> ptr -> bool -> host_state -> bool * host_state)
    (os : list op) (w : world) :
  exists w' t,
    run_ops orig os w = Some (tt, w', t)
    /\ lock_run None t = Some None.
Proof.
  destruct (run_ops_facts orig os w) as (w' & t & Hrun & _ & _ & Hlock & _).
  now exists w', t.
Qed.

(** X11. A stale entry.  Let [p] be a member that no handle resolves to
    any more and that has no handle of its own.  Then no setter call
    removes it, the membership query the shim uses still answers [true]
    for it, the enumeration lists exactly the non-zero handles of the
    other members, and clear-all does remove it. *)
Theorem stale_entry_persists (w : world) (p : ptr)
    (Hnonnull : p ≠ nullptr)
    (Hmember : p ∈ g_entitiesIgnoringBlackout w)
    (Hstale : forall handle, GetBaseFromGuid (host w) handle ≠ p)
    (Hnohandle : GetGuidFromBase (host w) p = 0%Z) :
  (forall entityHandle ignoreBlackout,
     exists w' t,
       SET_ENTITY_LIGHTS_IGNORE_ARTIFICIAL_STATE entityHandle ignoreBlackout w
         = Some (tt, w', t)
       /\ p ∈ g_entitiesIgnoringBlackout w')
  /\ DoesEntityIgnoreBlackout p w =
       Some (true, w, [EvLock Shared; EvFind p; EvUnlock Shared])
  /\ (exists handles t,
        GET_ALL_ENTITIES_IGNORING_ARTIFICIAL_LIGHTS_STATE w = Some (handles, w, t)
        /\ forall handle,
             handle ∈ handles <->
             handle ≠ 0%Z
             /\ exists q, q ∈ g_entitiesIgnoringBlackout w /\ q ≠ p
                          /\ GetGuidFromBase (host w) q = handle)
  /\ (exists w' t,
        CLEAR_ALL_ENTITY_LIGHTS_IGNORE_ARTIFICIAL_STATE w = Some (tt, w', t)
        /\ p ∉ g_entitiesIgnoringBlackout w').
Proof.
  repeat apply conj.
  - intros entityHandle ignoreBlackout. rewrite SET_run. cbv zeta.
    destruct (_ =? 0); [|destruct ignoreBlackout];
      do 2 eexists; (split; [reflexivity|]);
      cbn [g_entitiesIgnoringBlackout with_entities].
    + assumption.
    + apply elem_of_union. now right.
    + apply elem_of_difference. split; [assumption|].
      rewrite elem_of_singleton. intros Heq. now apply (Hstale entityHandle).
  - rewrite DoesEntityIgnoreBlackout_run, (eqb_nullptr_false _ Hnonnull).
    now rewrite (bool_decide_eq_true_2 _ Hmember).
  - rewrite GET_ALL_run. do 2 eexists. split; [reflexivity|].
    intros handle. rewrite list_elem_of_filter, list_elem_of_fmap. split.
    + intros (Hnz & q & -> & Hq). split; [assumption|].
      exists q. apply elem_of_elements in Hq. repeat split; [assumption|].
      intros ->. now apply Hnz.
    + intros (Hnz & q & Hq & _ & <-). split; [assumption|].
      exists q. split; [reflexivity | now apply elem_of_elements].
  - do 2 eexists. split; [reflexivity|]. apply not_elem_of_empty.
Qed.

Lemma stale_entry_persists_witness :
  exists w' t,
    SET_ENTITY_LIGHTS_IGNORE_ARTIFICIAL_STATE 42 false
      (with_entities {[ 0x3000 ]} Sample.w_empty) = Some (tt, w', t)
    /\ 0x3000 ∈ g_entitiesIgnoringBlackout w'.
Proof.
  apply (proj1 (stale_entry_persists (with_entities {[ 0x3000 ]} Sample.w_empty) 0x3000
                  ltac:(discriminate)
                  ltac:(vm_compute; reflexivity)
                  ltac:(intros handle; cbn; destruct (handle =? 42)%Z; discriminate)
                  eq_refl)).
Defined.

(** X12. Whatever happened before, a teardown signal or a clear-all at
    the end of a sequence of operations leaves the set empty. *)
Theorem teardown_empties_after_any_sequence
    (orig : ptr -> ptr -> bool -> host_state -> bool * host_state)
    (os : list op) (w : world) :
  (exists w' t,
     run_ops orig (os ++ [OpTeardown]) w = Some (tt, w', t)
     /\ g_entitiesIgnoringBlackout w' = ∅)
  /\ (exists w' t,
        run_ops orig (os ++ [OpClearAll]) w = Some (tt, w', t)
        /\ g_entitiesIgnoringBlackout w' = ∅).
Proof.
  destruct (run_ops_facts orig os w) as (w1 & t1 & Hrun & _).
  split; rewrite (run_ops_app _ _ _ _ _ _ Hrun); do 2 eexists;
    (split; reflexivity).
Qed.
